(** * denyenv: a validating admission webhook that rejects pods using env vars

    Shallow embedding of [exports.denyenv] (index.js) and the properties of
    its admission decision.

    The handler receives an Express-style request whose [body] is the parsed
    AdmissionReview document, walks [request.object.spec.containers], and
    sends back [{response: {allowed, status?}}].  JavaScript values are
    embedded as a tree type, the two global effects (console output, calls
    on [res]) as an explicit world threaded by a state-and-exception monad,
    and an uncaught [TypeError] as the failure branch of that monad. *)

From Stdlib Require Import String Ascii List Bool ZArith Lia DecimalString.
Import ListNotations.
Local Open Scope string_scope.
Local Open Scope list_scope.

(** The only exception the handler can raise: the runtime's [TypeError]
    (property read on [undefined]/[null], [in] on a primitive, iteration of
    a non-iterable, failed conversion to a primitive).  The handler has no
    [try]/[catch], so it escapes to the hosting platform. *)
Inductive Error : Type := TypeError.

(** ** The response objects built by the handler *)

(** The object literal assigned to [admissionResponse.status]. *)
Record Status : Type := mkStatus {
  status_status : string;
  status_message : string;
  status_reason : string;
  status_code : Z
}.

(** [admissionResponse]: created as [{allowed: false}]; the [status]
    property exists only once the loop has assigned it. *)
Record AdmissionResponse : Type := mkAdmissionResponse {
  allowed : bool;
  status : option Status
}.

(** [admissionReview = {response: admissionResponse}]. *)
Record AdmissionReview : Type := mkAdmissionReview {
  response : AdmissionResponse
}.

(** One method call on the [res] object, in the order the handler makes
    them.  [ResSendJSON v] records [res.send(JSON.stringify(v))] with the
    object handed to [JSON.stringify]; its bytes are [JSON_stringify v]. *)
Inductive ResCall : Type :=
| ResSetHeader (name value : string)
| ResSendJSON (payload : AdmissionReview)
| ResStatus (code : Z)
| ResEnd.

Record World : Type := mkWorld {
  console : list string;                  (* lines written by console.log *)
  res : list ResCall    (* calls received by res *)
}.

Definition emit (log : list string) (calls : list ResCall)
  (w : World) : World :=
  {| console := console w ++ log; res := res w ++ calls |}.

(** ** State-and-exception monad *)

Definition M (A : Type) : Type := World -> (Error + A) * World.

Definition ret {A} (a : A) : M A := fun w => (inr a, w).

Definition throw {A} (e : Error) : M A := fun w => (inl e, w).

Definition bind {A B} (m : M A) (k : A -> M B) : M B :=
  fun w => match m w with
           | (inr a, w') => k a w'
           | (inl e, w') => (inl e, w')
           end.

Definition lift {A} (r : Error + A) : M A := fun w => (r, w).

Declare Scope js_scope.
Delimit Scope js_scope with js.
Notation "x <- m ;; k" := (bind m (fun x => k))
  (at level 61, m at next level, right associativity) : js_scope.
Notation "m ;; k" := (bind m (fun _ => k))
  (at level 61, right associativity) : js_scope.

Definition console_log (line : string) : M unit :=
  fun w => (inr tt, emit [line] [] w).

Definition res_call (c : ResCall) : M unit :=
  fun w => (inr tt, emit [] [c] w).

(** [for (var x of xs) body], threading the variables the body assigns. *)
Fixpoint for_of {A S} (xs : list A) (body : A -> S -> M S) (s : S) : M S :=
  match xs with
  | [] => ret s
  | x :: rest => bind (body x s) (for_of rest body)
  end.

(** A computation is framed when its result and the effects it adds do not
    depend on the world it starts in. *)
Definition framed {A} (m : M A) : Prop :=
  exists out log calls, forall w, m w = (out, emit log calls w).

(** ** JSON serialisation of the response *)

Definition hex_digit (n : nat) : ascii :=
  match n with
  | 0 => "0" | 1 => "1" | 2 => "2" | 3 => "3" | 4 => "4" | 5 => "5"
  | 6 => "6" | 7 => "7" | 8 => "8" | 9 => "9" | 10 => "a" | 11 => "b"
  | 12 => "c" | 13 => "d" | 14 => "e" | _ => "f"
  end%char.

(** QuoteJSONString on one byte of the UTF-8 form of the string: the five
    short escapes, the quote and the backslash, [\u00xx] for the other
    control characters, every other byte unchanged. *)
Definition backslash : ascii := ascii_of_nat 92.

Definition quote_char (c : ascii) : string :=
  let n := nat_of_ascii c in
  match n with
  | 8 => "\b" | 9 => "\t" | 10 => "\n" | 12 => "\f" | 13 => "\r"
  | 34 => String backslash (String c EmptyString)
  | 92 => "\\"
  | _ => if Nat.ltb n 32
         then "\u00" ++ String (hex_digit (n / 16)) (String (hex_digit (n mod 16)) EmptyString)
         else String c EmptyString
  end.

Fixpoint quote_chars (s : string) : string :=
  match s with
  | EmptyString => EmptyString
  | String c rest => quote_char c ++ quote_chars rest
  end.

Definition dquote : string := String (ascii_of_nat 34) EmptyString.

Definition quote_string (s : string) : string :=
  dquote ++ quote_chars s ++ dquote.

Definition key (k : string) : string := quote_string k ++ ":".

(** An integer-valued number prints in decimal. *)
Definition Z_stringify (z : Z) : string := NilZero.string_of_int (Z.to_int z).

Definition Status_stringify (s : Status) : string :=
  "{" ++ key "status" ++ quote_string (status_status s)
  ++ "," ++ key "message" ++ quote_string (status_message s)
  ++ "," ++ key "reason" ++ quote_string (status_reason s)
  ++ "," ++ key "code" ++ Z_stringify (status_code s) ++ "}".

Definition AdmissionResponse_stringify (r : AdmissionResponse) : string :=
  "{" ++ key "allowed" ++ (if allowed r then "true" else "false")
  ++ match status r with
     | Some s => "," ++ key "status" ++ Status_stringify s
     | None => EmptyString
     end
  ++ "}".

(** [JSON.stringify(admissionReview)]. *)
Definition JSON_stringify (v : AdmissionReview) : string :=
  "{" ++ key "response" ++ AdmissionResponse_stringify (response v) ++ "}".


(** ** JavaScript values and the runtime operations the handler applies *)

Section Runtime.

(** Numbers occur only inside the request document and the handler's one
    operation on them is conversion to a string, so the Number type and its
    [Number::toString] are taken as parameters. *)
Context {Number : Type} (Number_toString : Number -> string).

(** A value reachable from [req.body]: what a JSON body parser builds, plus
    [undefined] for an absent body or property.  [VObj] lists the own
    properties of a plain object in order; a name is read at its first
    binding. *)
#[warnings="-register-all"]
Inductive value : Type :=
| VUndefined
| VNull
| VBool (b : bool)
| VNum (n : Number)
| VStr (s : string)
| VArr (items : list value)
| VObj (props : list (string * value)).

(** The Express request, of which the handler reads [body] only. *)
Record Request : Type := mkRequest { body : value }.

Fixpoint own (props : list (string * value)) (k : string) : option value :=
  match props with
  | [] => None
  | (k', v) :: rest => if String.eqb k' k then Some v else own rest k
  end.

Definition has_own (props : list (string * value)) (k : string) : bool :=
  match own props k with Some _ => true | None => false end.

(** [v.k] for the names the handler reads ([request], [object], [metadata],
    [name], [spec], [containers]): none of them is an index, [length], or a
    member of a built-in prototype, so on a primitive or an array the read
    gives [undefined], on a plain object the own property if there is one,
    and on [undefined] or [null] it throws. *)
Definition Get (v : value) (k : string) : Error + value :=
  match v with
  | VUndefined | VNull => inl TypeError
  | VObj props => inr (match own props k with Some x => x | None => VUndefined end)
  | VBool _ | VNum _ | VStr _ | VArr _ => inr VUndefined
  end.

(** [k in v] for [k = "env"]: a [TypeError] unless [v] is an object; an
    array is an object and has no such property. *)
Definition HasProperty (k : string) (v : value) : Error + bool :=
  match v with
  | VObj props => inr (has_own props k)
  | VArr _ => inr false
  | VUndefined | VNull | VBool _ | VNum _ | VStr _ => inl TypeError
  end.

(** ToString, as applied to a template-literal substitution.  An array
    converts through [join]: elements separated by commas, [undefined] and
    [null] elements as the empty string.  A plain object converts through
    [Object.prototype.toString] unless an own [toString] property (never
    callable here) shadows it, in which case no primitive is obtained and
    the conversion throws. *)
Fixpoint ToString (v : value) : Error + string :=
  match v with
  | VUndefined => inr "undefined"
  | VNull => inr "null"
  | VBool true => inr "true"
  | VBool false => inr "false"
  | VNum n => inr (Number_toString n)
  | VStr s => inr s
  | VArr items =>
      let element x :=
        match x with
        | VUndefined | VNull => inr EmptyString
        | _ => ToString x
        end in
      (fix join (xs : list value) : Error + string :=
         match xs with
         | [] => inr EmptyString
         | [x] => element x
         | x :: rest =>
             match element x with
             | inl e => inl e
             | inr s => match join rest with
                        | inl e => inl e
                        | inr t => inr (s ++ "," ++ t)%string
                        end
             end
         end) items
  | VObj props =>
      if has_own props "toString" then inl TypeError else inr "[object Object]"
  end.

(** Continuation bytes of a UTF-8 sequence have the form 10xxxxxx. *)
Definition is_continuation (c : ascii) : bool :=
  let n := nat_of_ascii c in Nat.leb 128 n && Nat.ltb n 192.

(** Splits the tail of a string into its pending continuation bytes and the
    code points that follow them. *)
Fixpoint code_points_aux (s : string) : string * list string :=
  match s with
  | EmptyString => (EmptyString, [])
  | String c rest =>
      let (pending, cps) := code_points_aux rest in
      if is_continuation c then (String c pending, cps)
      else (EmptyString, String c pending :: cps)
  end.

(** The code points of a string, which is what iterating a string yields. *)
Definition code_points (s : string) : list string :=
  match code_points_aux s with
  | (EmptyString, cps) => cps
  | (pending, cps) => pending :: cps
  end.

(** The sequence a [for ... of] loop runs over: the elements of an array,
    the code points of a string; nothing else here is iterable. *)
Definition GetIterator (v : value) : Error + list value :=
  match v with
  | VArr items => inr items
  | VStr s => inr (map VStr (code_points s))
  | VUndefined | VNull | VBool _ | VNum _ | VObj _ => inl TypeError
  end.

Local Open Scope js_scope.

(** The template literal [`${container.name} is using env vars`]. *)
Definition using_env_vars (container : value) : M string :=
  name <- lift (Get container "name") ;;
  s <- lift (ToString name) ;;
  ret (s ++ " is using env vars")%string.

(** The body of the [for] loop, acting on the two variables it assigns:
    [admissionResponse] and [found]. *)
Definition loop_body (container : value)
  (vars : AdmissionResponse * bool) : M (AdmissionResponse * bool) :=
  let (admissionResponse, found) := vars in
  uses <- lift (HasProperty "env" container) ;;
  if (uses : bool) then
    line <- using_env_vars container ;;
    console_log line ;;
    message <- using_env_vars container ;;
    reason <- using_env_vars container ;;
    let admissionResponse :=
      {| allowed := allowed admissionResponse;
         status := Some {| status_status := "Failure";
                           status_message := message;
                           status_reason := reason;
                           status_code := 402 |} |} in
    let found := true in
    ret (admissionResponse, found)
  else ret (admissionResponse, found).

(** [exports.denyenv]. *)
Definition denyenv (req : Request) : M unit :=
  let admissionRequest := body req in
  request <- lift (Get admissionRequest "request") ;;
  object <- lift (Get request "object") ;;
  metadata <- lift (Get object "metadata") ;;
  name <- lift (Get metadata "name") ;;
  pod <- lift (ToString name) ;;
  console_log ("validating the " ++ pod ++ " pod")%string ;;
  let admissionResponse := {| allowed := false; status := None |} in
  let found := false in
  spec <- lift (Get object "spec") ;;
  containers <- lift (Get spec "containers") ;;
  items <- lift (GetIterator containers) ;;
  vars <- for_of items loop_body (admissionResponse, found) ;;
  let (admissionResponse, found) := vars : AdmissionResponse * bool in
  let admissionResponse :=
    if negb found
    then {| allowed := true; status := status admissionResponse |}
    else admissionResponse in
  let admissionReview := {| response := admissionResponse |} in
  res_call (ResSetHeader "Content-Type" "application/json") ;;
  res_call (ResSendJSON admissionReview) ;;
  res_call (ResStatus 200) ;;
  res_call ResEnd.

(** ** Observing a run *)

(** The world before the handler is invoked: nothing logged, [res]
    untouched. *)
Definition initial : World := {| console := []; res := [] |}.

Definition run (req : Request) : (Error + unit) * World := denyenv req initial.

(** The documents passed to [res.send], in order. *)
Definition sent (calls : list ResCall) : list AdmissionReview :=
  flat_map (fun c => match c with ResSendJSON v => [v] | _ => [] end) calls.

(** The [response] member of the one document sent by a run that returned
    normally; [None] when the handler threw. *)
Definition decision (req : Request) : option AdmissionResponse :=
  match run req with
  | (inr _, w) => match sent (res w) with
                  | [v] => Some (response v)
                  | _ => None
                  end
  | (inl _, _) => None
  end.

(** The bytes written to the client by that run. *)
Definition wire (req : Request) : option string :=
  match run req with
  | (inr _, w) => match sent (res w) with
                  | [v] => Some (JSON_stringify v)
                  | _ => None
                  end
  | (inl _, _) => None
  end.

(** ** Vocabulary of the properties *)

(** Successive property reads [v.k1.k2...]. *)
Fixpoint path (v : value) (ks : list string) : Error + value :=
  match ks with
  | [] => inr v
  | k :: rest => match Get v k with
                 | inr x => path x rest
                 | inl e => inl e
                 end
  end.

(** A container as the wire protocol describes it: an object with a string
    [name]. *)
Definition is_container (c : value) : bool :=
  match c with
  | VObj props => match own props "name" with
                  | Some (VStr _) => true
                  | _ => false
                  end
  | _ => false
  end.

(** A well-formed admission request: [request.object.metadata.name] is a
    string and [request.object.spec.containers] is a list of containers.
    The members the handler never reads ([uid], [operation], ...) are left
    unconstrained. *)
Definition well_formed (b : value) : bool :=
  match path b ["request"; "object"; "metadata"; "name"],
        path b ["request"; "object"; "spec"; "containers"] with
  | inr (VStr _), inr (VArr items) => forallb is_container items
  | _, _ => false
  end.

(** [object.spec.containers] of a request document. *)
Definition pod_containers (b : value) : list value :=
  match path b ["request"; "object"; "spec"; "containers"] with
  | inr (VArr items) => items
  | _ => []
  end.

(** The container has an [env] field, whatever its value. *)
Definition uses_env (c : value) : bool :=
  match c with
  | VObj props => has_own props "env"
  | _ => false
  end.

(** The [name] of a container. *)
Definition name_of (c : value) : string :=
  match c with
  | VObj props => match own props "name" with
                  | Some (VStr n) => n
                  | _ => EmptyString
                  end
  | _ => EmptyString
  end.

(** The last container of the list that has an [env] field, if any. *)
Fixpoint last_using_env (cs : list value) : option value :=
  match cs with
  | [] => None
  | c :: rest => match last_using_env rest with
                 | Some d => Some d
                 | None => if uses_env c then Some c else None
                 end
  end.

(** The member [k] is absent from the document [v]. *)
Definition lacks (v : value) (k : string) : bool :=
  match v with
  | VObj props => negb (has_own props k)
  | _ => true
  end.

(** The status block reported for a container called [n]. *)
Definition failure (n : string) : Status :=
  {| status_status := "Failure";
     status_message := n ++ " is using env vars";
     status_reason := n ++ " is using env vars";
     status_code := 402 |}.

(** The line logged, and reported, for a container. *)
Definition env_line (c : value) : string := name_of c ++ " is using env vars".

(** The lines the loop logs over the containers [cs]. *)
Definition env_lines (cs : list value) : list string :=
  map env_line (filter uses_env cs).

(** The response for a pod whose containers are [cs]. *)
Definition verdict (cs : list value) : AdmissionResponse :=
  match last_using_env cs with
  | Some c => {| allowed := false; status := Some (failure (name_of c)) |}
  | None => {| allowed := true; status := None |}
  end.

(** The calls that send the response [r]. *)
Definition reply (r : AdmissionResponse) : list ResCall :=
  [ResSetHeader "Content-Type" "application/json";
   ResSendJSON {| response := r |};
   ResStatus 200;
   ResEnd].

(** An AdmissionReview request document with the given [uid], [operation]
    and [object]. *)
Definition review_of (uid operation object : value) : Request :=
  {| body := VObj [("request", VObj [("uid", uid);
                                     ("operation", operation);
                                     ("object", object)])] |}.

(** A pod object with the given name and containers. *)
Definition pod (name : string) (containers : list value) : value :=
  VObj [("metadata", VObj [("name", VStr name)]);
        ("spec", VObj [("containers", VArr containers)])].

End Runtime.

(** ** Sample documents *)

Module Samples.

(** Numbers of the samples are integers, printed in decimal. *)
Definition JS := @value Z.

Definition create (uid : string) (object : JS) : @Request Z :=
  review_of (VStr uid) (VStr "CREATE") object.

Definition container (name : string) : JS := VObj [("name", VStr name)].

Definition container_env (name : string) (env : JS) : JS :=
  VObj [("name", VStr name); ("env", env)].

Definition password : JS :=
  VArr [VObj [("name", VStr "PASSWORD"); ("value", VStr "fail")]].

(** Scenario A: one container without [env]. *)
Definition scenario_a : @Request Z :=
  create "705ab4f5-6393-11e8-b7cc-42010a800002" (pod "nginx" [container "nginx"]).

(** Scenario B: one container with [env]. *)
Definition scenario_b : @Request Z :=
  create "uid-b" (pod "nginx-with-env" [container_env "nginx-with-env" password]).

(** Two containers with [env], a container without [env] between them. *)
Definition two_offenders : @Request Z :=
  create "uid-c" (pod "web" [container_env "first" password;
                             container "sidecar";
                             container_env "second" (VArr [])]).

(** A container whose [env] is the empty list. *)
Definition empty_env : @Request Z :=
  create "uid-e" (pod "web" [container_env "app" (VArr [])]).

(** A pod without containers. *)
Definition no_containers : @Request Z := create "uid-n" (pod "empty" []).

(** Documents without [request], and without [request.object]. *)
Definition no_request : @Request Z := {| body := VObj [("kind", VStr "AdmissionReview")] |}.

Definition no_object : @Request Z :=
  {| body := VObj [("request", VObj [("uid", VStr "uid-d"); ("operation", VStr "CREATE")])] |}.

(** An object that is not a pod: it declares another kind and version. *)
Definition widget (kind apiVersion : string) : @Request Z :=
  create "uid-w" (VObj [("apiVersion", VStr apiVersion);
                        ("kind", VStr kind);
                        ("metadata", VObj [("name", VStr "w1")]);
                        ("spec", VObj [("containers", VArr [container "c1"])])]).

End Samples.

(** ** Documents off the wire protocol *)

Module EdgeSamples.
Import Samples.

(** An object without [metadata]. *)
Definition no_metadata : @Request Z :=
  create "uid-m" (VObj [("spec", VObj [("containers", VArr [container "c1"])])]).

(** A pod whose [spec] has no [containers]. *)
Definition no_containers_member : @Request Z :=
  create "uid-s" (VObj [("metadata", VObj [("name", VStr "bare")]);
                        ("spec", VObj [("nodeName", VStr "n1")])]).

(** A containers list with a [null] element after a container with
    [env]. *)
Definition null_container : @Request Z :=
  create "uid-0" (pod "web" [container_env "app" password; VNull]).

(** [containers] bound to a string. *)
Definition string_containers (s : string) : @Request Z :=
  create "uid-t" (VObj [("metadata", VObj [("name", VStr "texty")]);
                        ("spec", VObj [("containers", VStr s)])]).

(** A container with [env] and no [name], after a container whose name is
    a number. *)
Definition nameless : @Request Z :=
  create "uid-u" (pod "web" [VObj [("name", VNum 7%Z); ("env", password)];
                             VObj [("image", VStr "nginx"); ("env", VArr [])]]).

(** Two pods whose containers have the same names and the same [env]
    presence, and differ in everything else. *)
Definition dressed : @Request Z :=
  create "uid-1" (pod "web" [VObj [("name", VStr "app");
                                   ("image", VStr "nginx:1.25");
                                   ("env", password)];
                             VObj [("name", VStr "sidecar");
                                   ("image", VStr "envoy")]]).

Definition plain : @Request Z :=
  create "uid-2" (pod "web" [VObj [("env", VNull); ("name", VStr "app")];
                             container "sidecar"]).

(** The containers of [Samples.two_offenders] in another order, one of them
    twice. *)
Definition shuffled : @Request Z :=
  create "uid-3" (pod "web" [container_env "second" (VArr []);
                             container "sidecar";
                             container_env "first" password;
                             container "sidecar"]).

(** [Samples.empty_env] with a container added in front. *)
Definition grown : @Request Z :=
  create "uid-4" (pod "web" [container "sidecar";
                             container_env "app" (VArr [])]).

(** A container with [env] whose name is a number. *)
Definition numbered : @Request Z :=
  create "uid-7" (pod "web" [VObj [("name", VNum 7%Z); ("env", password)]]).

(** [Samples.scenario_b] as another user would submit it. *)
Definition resubmitted : @Request Z :=
  {| body :=
       VObj [("apiVersion", VStr "admission.k8s.io/v1beta1");
             ("kind", VStr "AdmissionReview");
             ("request",
              VObj [("uid", VStr "uid-5");
                    ("operation", VStr "UPDATE");
                    ("userInfo", VObj [("username", VStr "someone")]);
                    ("object",
                     VObj [("kind", VStr "Pod");
                           ("spec",
                            VObj [("containers",
                                   VArr [container_env "nginx-with-env" password])]);
                           ("metadata",
                            VObj [("namespace", VStr "default");
                                  ("name", VStr "nginx-with-env")])])])] |}.

End EdgeSamples.

(** * Properties *)

Section Properties.

Context {Number : Type} (Number_toString : Number -> string).

(** ** Effects accumulate *)

Lemma emit_nil (w : World) : emit [] [] w = w.
Proof. destruct w; unfold emit; simpl. now rewrite !app_nil_r. Qed.

Lemma emit_emit (l1 l2 : list string) (c1 c2 : list ResCall) (w : World) :
  emit l2 c2 (emit l1 c1 w) = emit (l1 ++ l2) (c1 ++ c2) w.
Proof. unfold emit; simpl. now rewrite !app_assoc. Qed.

Lemma framed_ret {A} (a : A) : framed (ret a).
Proof. exists (inr a), [], []. intro w. now rewrite emit_nil. Qed.

Lemma framed_lift {A} (r : Error + A) : framed (lift r).
Proof. exists r, [], []. intro w. now rewrite emit_nil. Qed.

Lemma framed_console_log (line : string) : framed (console_log line).
Proof. now exists (inr tt), [line], []. Qed.

Lemma framed_res_call (c : ResCall) : framed (res_call c).
Proof. now exists (inr tt), [], [c]. Qed.

Lemma framed_bind {A B} (m : M A) (k : A -> M B) :
  framed m -> (forall a, framed (k a)) -> framed (bind m k).
Proof.
  intros (out & log & calls & Hm) Hk.
  destruct out as [e | a].
  - exists (inl e), log, calls. intro w. unfold bind. now rewrite Hm.
  - destruct (Hk a) as (out' & log' & calls' & Hka).
    exists out', (log ++ log'), (calls ++ calls'). intro w.
    unfold bind. now rewrite Hm, Hka, emit_emit.
Qed.

Lemma framed_for_of {A S} (body : A -> S -> M S) (xs : list A) :
  (forall x s, framed (body x s)) -> forall s, framed (for_of xs body s).
Proof.
  intro Hbody. induction xs as [| x rest IH]; intro s; simpl.
  - apply framed_ret.
  - apply framed_bind; [apply Hbody | exact IH].
Qed.

Ltac framed_step :=
  first [ apply framed_bind; [| intro]
        | apply framed_ret | apply framed_lift
        | apply framed_console_log | apply framed_res_call ].

Lemma framed_using_env_vars (c : @value Number) :
  framed (using_env_vars Number_toString c).
Proof. unfold using_env_vars. repeat framed_step. Qed.

Lemma framed_loop_body (c : @value Number) (vars : AdmissionResponse * bool) :
  framed (loop_body Number_toString c vars).
Proof.
  destruct vars as [r f]. unfold loop_body.
  apply framed_bind; [apply framed_lift |]. intros [|].
  - repeat first [ apply framed_using_env_vars | framed_step ].
  - apply framed_ret.
Qed.

Lemma framed_denyenv (req : @Request Number) : framed (denyenv Number_toString req).
Proof.
  unfold denyenv.
  repeat first [ apply framed_for_of; intros; apply framed_loop_body
               | framed_step ].
  match goal with |- framed (let (_, _) := ?v in _) => destruct v end.
  repeat framed_step.
Qed.

(** ** The loop over well-formed containers *)

Lemma is_container_name (c : @value Number) :
  is_container c = true -> Get c "name" = inr (VStr (name_of c)).
Proof.
  destruct c as [| | b | n | s | items | props]; simpl; try discriminate.
  destruct (own props "name") as [[| | b | n | s | items | props'] |];
    simpl; try discriminate; reflexivity.
Qed.

Lemma is_container_HasProperty (c : @value Number) :
  is_container c = true -> HasProperty "env" c = inr (uses_env c).
Proof.
  destruct c as [| | b | n | s | items | props]; simpl; try discriminate.
  reflexivity.
Qed.

Lemma using_env_vars_container (c : @value Number) (w : World) :
  is_container c = true ->
  using_env_vars Number_toString c w = (inr (env_line c), w).
Proof.
  intro Hc. unfold using_env_vars, bind, lift.
  rewrite (is_container_name c Hc). reflexivity.
Qed.

Lemma loop_body_container (c : @value Number) (r : AdmissionResponse) (f : bool)
  (w : World) :
  is_container c = true ->
  loop_body Number_toString c (r, f) w =
  if uses_env c
  then (inr ({| allowed := allowed r; status := Some (failure (name_of c)) |},
             true),
        emit [env_line c] [] w)
  else (inr (r, f), w).
Proof.
  intro Hc. unfold loop_body, bind at 1, lift.
  rewrite (is_container_HasProperty c Hc).
  destruct (uses_env c); [| reflexivity].
  unfold bind. rewrite (using_env_vars_container c w Hc).
  unfold console_log.
  rewrite !(using_env_vars_container c _ Hc). reflexivity.
Qed.

Lemma for_of_containers (cs : list (@value Number)) :
  forallb is_container cs = true ->
  forall (r : AdmissionResponse) (f : bool) (w : World),
    for_of cs (loop_body Number_toString) (r, f) w =
    (inr match last_using_env cs with
         | Some c => ({| allowed := allowed r;
                         status := Some (failure (name_of c)) |}, true)
         | None => (r, f)
         end,
     emit (env_lines cs) [] w).
Proof.
  induction cs as [| c rest IH]; intros Hcs r f w.
  - simpl. unfold ret. now rewrite emit_nil.
  - simpl in Hcs. apply andb_prop in Hcs as [Hc Hrest].
    cbn [for_of]. unfold bind at 1. rewrite (loop_body_container c r f w Hc).
    unfold env_lines. cbn [filter last_using_env].
    destruct (uses_env c).
    + rewrite (IH Hrest). simpl map. rewrite emit_emit. simpl.
      destruct (last_using_env rest); reflexivity.
    + rewrite (IH Hrest). destruct (last_using_env rest); reflexivity.
Qed.

(** ** The handler on a well-formed request *)

Lemma well_formed_inv (b : @value Number) :
  well_formed b = true ->
  exists request object metadata podname spec,
    Get b "request" = inr request /\
    Get request "object" = inr object /\
    Get object "metadata" = inr metadata /\
    Get metadata "name" = inr (VStr podname) /\
    Get object "spec" = inr spec /\
    Get spec "containers" = inr (VArr (pod_containers b)) /\
    forallb is_container (pod_containers b) = true.
Proof.
  unfold well_formed, pod_containers. cbn [path].
  destruct (Get b "request") as [e | request] eqn:E1; [discriminate |].
  destruct (Get request "object") as [e | object] eqn:E2; [discriminate |].
  destruct (Get object "metadata") as [e | metadata] eqn:E3;
    [discriminate |].
  destruct (Get metadata "name") as [e | [| | x | x | podname | x | x]]
    eqn:E4; try discriminate.
  destruct (Get object "spec") as [e | spec] eqn:E5; [discriminate |].
  destruct (Get spec "containers") as [e | [| | x | x | x | items | x]]
    eqn:E6; try discriminate.
  intro H. exists request, object, metadata, podname, spec.
  repeat split; assumption.
Qed.

Lemma denyenv_well_formed (req : @Request Number) (w : World) :
  well_formed (body req) = true ->
  exists podname,
    path (body req) ["request"; "object"; "metadata"; "name"]
    = inr (VStr podname) /\
    denyenv Number_toString req w =
    (inr tt,
     emit (("validating the " ++ podname ++ " pod")%string
           :: env_lines (pod_containers (body req)))
          (reply (verdict (pod_containers (body req)))) w).
Proof.
  intro Hwf.
  destruct (well_formed_inv _ Hwf)
    as (request & object & metadata & podname & spec
        & E1 & E2 & E3 & E4 & E5 & E6 & Hcs).
  exists podname. split.
  - cbn [path]. now rewrite E1, E2, E3, E4.
  - unfold denyenv, bind, lift.
    rewrite E1, E2, E3, E4. cbn [ToString console_log].
    rewrite E5, E6. cbn [GetIterator].
    rewrite (for_of_containers _ Hcs). unfold verdict, res_call.
    destruct (last_using_env (pod_containers (body req)));
      cbn [negb allowed status]; rewrite !emit_emit;
      cbn [app]; rewrite !app_nil_r; reflexivity.
Qed.

Lemma decision_well_formed (req : @Request Number) :
  well_formed (body req) = true ->
  decision Number_toString req = Some (verdict (pod_containers (body req))).
Proof.
  intro Hwf. unfold decision, run.
  destruct (denyenv_well_formed req initial Hwf) as (podname & _ & ->).
  reflexivity.
Qed.

(** ** The last container with [env] *)

Lemma last_using_env_None (cs : list (@value Number)) :
  last_using_env cs = None <-> forall c, In c cs -> uses_env c = false.
Proof.
  induction cs as [| c rest IH]; simpl.
  - split; [intros _ c [] | reflexivity].
  - destruct (last_using_env rest) as [d |].
    + split; [discriminate |]. intro H.
      assert (Some d = None) by (apply IH; intros; apply H; auto).
      discriminate.
    + destruct (uses_env c) eqn:Ec.
      * split; [discriminate |]. intro H.
        specialize (H c (or_introl eq_refl)). congruence.
      * split; [| reflexivity]. intros _ x [<- | Hx]; [exact Ec |].
        now apply IH.
Qed.

Lemma last_using_env_Some (cs : list (@value Number)) (c : @value Number) :
  last_using_env cs = Some c -> In c cs /\ uses_env c = true.
Proof.
  induction cs as [| x rest IH]; simpl; [discriminate |].
  destruct (last_using_env rest) as [d |].
  - intros [= ->]. destruct (IH eq_refl). auto.
  - destruct (uses_env x) eqn:Ex; [| discriminate].
    intros [= ->]. auto.
Qed.

Lemma last_using_env_app (pre post : list (@value Number))
  (c : @value Number) :
  uses_env c = true ->
  (forall x, In x post -> uses_env x = false) ->
  last_using_env (pre ++ c :: post) = Some c.
Proof.
  intros Hc Hpost. induction pre as [| x pre IH]; simpl.
  - apply last_using_env_None in Hpost. now rewrite Hpost, Hc.
  - now rewrite IH.
Qed.

(** ** The admission decision *)

(** C1. On every well-formed admission request the handler answers, and
    the [allowed] flag of its response is true exactly when no container of
    [object.spec.containers] has an [env] field, false exactly when at least
    one has. *)
Theorem allowed_iff_no_env (req : @Request Number) :
  well_formed (body req) = true ->
  exists r,
    decision Number_toString req = Some r /\
    (allowed r = true <->
     forall c, In c (pod_containers (body req)) -> uses_env c = false) /\
    (allowed r = false <->
     exists c, In c (pod_containers (body req)) /\ uses_env c = true).
Proof.
  intro Hwf. exists (verdict (pod_containers (body req))).
  split; [now apply decision_well_formed |].
  unfold verdict.
  destruct (last_using_env (pod_containers (body req))) as [d |] eqn:E;
    cbn [allowed].
  - apply last_using_env_Some in E as [Hin Hd]. split; split.
    + discriminate.
    + intro H. rewrite (H d Hin) in Hd. discriminate.
    + intros _. now exists d.
    + reflexivity.
  - pose proof (proj1 (last_using_env_None _) E) as Hnone. split; split.
    + intros _. exact Hnone.
    + reflexivity.
    + discriminate.
    + intros (c & Hin & Hc). rewrite (Hnone c Hin) in Hc. discriminate.
Qed.

(** C2. When at least one container of a well-formed request has an [env]
    field, the response has [allowed] false and a status block with status
    "Failure" and code 402 whose message and reason are both
    "<name> is using env vars" for the name of a container that has the
    [env] field. *)
Theorem denial_names_env_container (req : @Request Number) :
  well_formed (body req) = true ->
  (exists c, In c (pod_containers (body req)) /\ uses_env c = true) ->
  exists r st c n,
    decision Number_toString req = Some r /\
    allowed r = false /\
    status r = Some st /\
    status_status st = "Failure" /\
    status_code st = 402%Z /\
    In c (pod_containers (body req)) /\
    uses_env c = true /\
    Get c "name" = inr (VStr n) /\
    status_message st = (n ++ " is using env vars")%string /\
    status_reason st = (n ++ " is using env vars")%string.
Proof.
  intros Hwf (c0 & Hin0 & Hc0).
  pose proof (decision_well_formed req Hwf) as Hd. unfold verdict in Hd.
  destruct (well_formed_inv _ Hwf) as (? & ? & ? & ? & ? & _ & _ & _ & _ & _ & _ & Hcs).
  destruct (last_using_env (pod_containers (body req))) as [d |] eqn:E.
  - apply last_using_env_Some in E as [Hin Hused].
    exists {| allowed := false; status := Some (failure (name_of d)) |},
      (failure (name_of d)), d, (name_of d).
    repeat split; try assumption.
    apply is_container_name.
    exact (proj1 (forallb_forall _ _) Hcs d Hin).
  - rewrite (proj1 (last_using_env_None _) E c0 Hin0) in Hc0. discriminate.
Qed.

(** C3, as the code has it.  When containers of a well-formed request have
    an [env] field, the message and reason of the denial are those of the
    last such container in the order of the containers list: each match
    overwrites the status of the matches before it. *)
Theorem denial_reports_last_env_container (req : @Request Number)
  (pre post : list (@value Number)) (c : @value Number) :
  well_formed (body req) = true ->
  pod_containers (body req) = pre ++ c :: post ->
  uses_env c = true ->
  (forall x, In x post -> uses_env x = false) ->
  exists n,
    Get c "name" = inr (VStr n) /\
    decision Number_toString req
    = Some {| allowed := false; status := Some (failure n) |}.
Proof.
  intros Hwf Hsplit Hc Hpost. exists (name_of c). split.
  - apply is_container_name.
    destruct (well_formed_inv _ Hwf) as (? & ? & ? & ? & ? & _ & _ & _ & _ & _ & _ & Hcs).
    apply (proj1 (forallb_forall _ _) Hcs). rewrite Hsplit.
    apply in_or_app. right. now left.
  - rewrite (decision_well_formed req Hwf). unfold verdict.
    now rewrite Hsplit, (last_using_env_app pre post c Hc Hpost).
Qed.

(** C4. The check is on the presence of the [env] field, not on its value:
    a container whose [env] is the empty list counts as using [env], and a
    well-formed request whose only container is such a container, called
    [n], is denied on its account. *)
Theorem empty_env_is_denied (req : @Request Number)
  (props : list (string * @value Number)) (n : string) :
  well_formed (body req) = true ->
  pod_containers (body req) = [VObj props] ->
  own props "name" = Some (VStr n) ->
  own props "env" = Some (VArr []) ->
  uses_env (VObj props) = true /\
  decision Number_toString req
  = Some {| allowed := false; status := Some (failure n) |}.
Proof.
  intros Hwf Hcs Hname Henv.
  assert (Hused : uses_env (VObj props) = true)
    by (simpl; unfold has_own; now rewrite Henv).
  split; [exact Hused |].
  rewrite (decision_well_formed req Hwf), Hcs. unfold verdict.
  cbn [last_using_env]. rewrite Hused. cbn [name_of]. now rewrite Hname.
Qed.

(** C5. The response to a well-formed request carries a status block if
    and only if its [allowed] flag is false. *)
Theorem status_iff_denied (req : @Request Number) :
  well_formed (body req) = true ->
  exists r,
    decision Number_toString req = Some r /\
    (status r <> None <-> allowed r = false) /\
    (status r = None <-> allowed r = true).
Proof.
  intro Hwf. exists (verdict (pod_containers (body req))).
  split; [now apply decision_well_formed |].
  unfold verdict.
  destruct (last_using_env (pod_containers (body req)));
    cbn [allowed status]; repeat split; try discriminate; try reflexivity.
  intro H. now contradiction H.
Qed.

(** C10. A well-formed request whose containers list is empty is allowed,
    with no status block. *)
Theorem no_containers_allowed (req : @Request Number) :
  well_formed (body req) = true ->
  pod_containers (body req) = [] ->
  decision Number_toString req = Some {| allowed := true; status := None |}.
Proof.
  intros Hwf Hnil. rewrite (decision_well_formed req Hwf), Hnil. reflexivity.
Qed.

(** ** What the handler reads, and what it does on a broken document *)

(** C6, as the code has it.  The handler never reads [request.uid]: two
    request documents that differ only in the value of [uid] have the same
    outcome, so the response, made of [allowed] and [status] only, does not
    carry the request identifier. *)
Theorem denyenv_ignores_uid (uid1 uid2 : @value Number)
  (members top : list (string * @value Number)) (w : World) :
  denyenv Number_toString
    {| body := VObj (("request", VObj (("uid", uid1) :: members)) :: top) |} w
  = denyenv Number_toString
      {| body := VObj (("request", VObj (("uid", uid2) :: members)) :: top) |} w.
Proof. reflexivity. Qed.

(** C7. When the document has no [request] member, or its [request] has no
    [object] member, the handler throws before logging or calling [res]:
    the failure reaches the hosting platform and no response body, hence
    none with [allowed] true, is produced. *)
Theorem missing_request_or_object_throws (req : @Request Number) (w : World) :
  lacks (body req) "request" = true \/
  (exists request,
     Get (body req) "request" = inr request /\ lacks request "object" = true) ->
  denyenv Number_toString req w = (inl TypeError, w) /\
  decision Number_toString req = None.
Proof.
  intro H.
  assert (Hthrow : forall w', denyenv Number_toString req w' = (inl TypeError, w')).
  { intro w'. unfold denyenv, bind, lift.
    destruct H as [Hreq | (request & Ereq & Hobj)].
    - destruct (body req) as [| | b | n | s | items | props];
        try reflexivity.
      simpl in Hreq. unfold has_own in Hreq. simpl.
      destruct (own props "request"); [discriminate | reflexivity].
    - rewrite Ereq.
      destruct request as [| | b | n | s | items | props]; try reflexivity.
      simpl in Hobj. unfold has_own in Hobj. simpl.
      destruct (own props "object"); [discriminate | reflexivity]. }
  split; [apply Hthrow |].
  unfold decision, run. now rewrite Hthrow.
Qed.

(** C8, as the code has it.  The handler never reads the kind or the API
    version that the request or its object declares, and it has no
    configuration: two requests that differ only in [request.kind] and in
    the [apiVersion] and [kind] of the object have the same outcome. *)
Theorem denyenv_ignores_kind
  (gvk1 apiVersion1 kind1 gvk2 apiVersion2 kind2 : @value Number)
  (fields members top : list (string * @value Number)) (w : World) :
  denyenv Number_toString
    {| body :=
         VObj (("request",
                VObj (("kind", gvk1)
                      :: ("object",
                          VObj (("apiVersion", apiVersion1)
                                :: ("kind", kind1) :: fields))
                      :: members)) :: top) |} w
  = denyenv Number_toString
      {| body :=
           VObj (("request",
                  VObj (("kind", gvk2)
                        :: ("object",
                            VObj (("apiVersion", apiVersion2)
                                  :: ("kind", kind2) :: fields))
                        :: members)) :: top) |} w.
Proof. reflexivity. Qed.

(** C9. The handler keeps no state between evaluations: its result and the
    effects it adds are the same in every world, so a second evaluation of
    the same request, started where the first one ended, returns the same
    result, logs the same lines and sends the same response. *)
Theorem denyenv_idempotent (req : @Request Number) (w : World) :
  exists out log calls,
    denyenv Number_toString req w = (out, emit log calls w) /\
    denyenv Number_toString req (snd (denyenv Number_toString req w))
    = (out, emit log calls (snd (denyenv Number_toString req w))).
Proof.
  destruct (framed_denyenv req) as (out & log & calls & H).
  exists out, log, calls. split; apply H.
Qed.

End Properties.

(** * The properties on the sample documents *)

Module OnSamples.
Import Samples.

Lemma allowed_iff_no_env_witness :
  well_formed (body scenario_b) = true /\
  exists r,
    decision Z_stringify scenario_b = Some r /\
    (allowed r = true <->
     forall c, In c (pod_containers (body scenario_b)) -> uses_env c = false) /\
    (allowed r = false <->
     exists c, In c (pod_containers (body scenario_b)) /\ uses_env c = true).
Proof.
  split; [reflexivity |].
  apply (allowed_iff_no_env Z_stringify scenario_b). reflexivity.
Defined.

Lemma denial_names_env_container_witness :
  exists r st c n,
    decision Z_stringify scenario_b = Some r /\
    allowed r = false /\
    status r = Some st /\
    status_status st = "Failure" /\
    status_code st = 402%Z /\
    In c (pod_containers (body scenario_b)) /\
    uses_env c = true /\
    Get c "name" = inr (VStr n) /\
    status_message st = (n ++ " is using env vars")%string /\
    status_reason st = (n ++ " is using env vars")%string.
Proof.
  apply (denial_names_env_container Z_stringify scenario_b).
  - reflexivity.
  - exists (container_env "nginx-with-env" password).
    split; [now left | reflexivity].
Defined.

(** C3 fails as stated: of two containers with [env], the status names the
    second, not the first. *)
Lemma first_env_container_not_reported :
  pod_containers (body two_offenders)
  = [container_env "first" password; container "sidecar";
     container_env "second" (VArr [])] /\
  exists st,
    decision Z_stringify two_offenders
    = Some {| allowed := false; status := Some st |} /\
    status_message st = "second is using env vars" /\
    status_message st <> "first is using env vars" /\
    status_reason st <> "first is using env vars".
Proof.
  split; [reflexivity |]. exists (failure "second").
  repeat split; try reflexivity; discriminate.
Qed.

Lemma denial_reports_last_env_container_witness :
  exists n,
    Get (container_env "second" (VArr [])) "name" = inr (VStr n) /\
    decision Z_stringify two_offenders
    = Some {| allowed := false; status := Some (failure n) |}.
Proof.
  apply (denial_reports_last_env_container Z_stringify two_offenders
           [container_env "first" password; container "sidecar"] []
           (container_env "second" (VArr []))).
  - reflexivity.
  - reflexivity.
  - reflexivity.
  - intros x [].
Defined.

Lemma empty_env_is_denied_witness :
  uses_env (container_env "app" (VArr [])) = true /\
  decision Z_stringify empty_env
  = Some {| allowed := false; status := Some (failure "app") |}.
Proof.
  apply (empty_env_is_denied Z_stringify empty_env
           [("name", VStr "app"); ("env", VArr [])] "app");
    reflexivity.
Defined.

Lemma status_iff_denied_witness :
  well_formed (body two_offenders) = true /\
  exists r,
    decision Z_stringify two_offenders = Some r /\
    (status r <> None <-> allowed r = false) /\
    (status r = None <-> allowed r = true).
Proof.
  split; [reflexivity |].
  apply (status_iff_denied Z_stringify two_offenders). reflexivity.
Defined.

(** C6 fails as stated: the bytes sent for a request with a uid contain
    neither that uid nor a uid member. *)
Lemma uid_not_echoed :
  path (body scenario_a) ["request"; "uid"]
  = inr (VStr "705ab4f5-6393-11e8-b7cc-42010a800002") /\
  decision Z_stringify scenario_a = Some {| allowed := true; status := None |} /\
  exists bytes,
    wire Z_stringify scenario_a = Some bytes /\
    bytes = ("{" ++ key "response" ++ "{" ++ key "allowed" ++ "true}}")%string /\
    index 0 "705ab4f5-6393-11e8-b7cc-42010a800002" bytes = None /\
    index 0 "uid" bytes = None.
Proof.
  split; [reflexivity |]. split; [reflexivity |].
  eexists. split; [reflexivity |]. repeat split; reflexivity.
Qed.

Lemma missing_request_or_object_throws_witness :
  lacks (VObj [("uid", VStr "uid-d"); ("operation", VStr "CREATE")] : JS)
    "object" = true /\
  denyenv Z_stringify no_object initial = (inl TypeError, initial) /\
  decision Z_stringify no_object = None.
Proof.
  split; [reflexivity |].
  apply (missing_request_or_object_throws Z_stringify no_object initial).
  right. exists (VObj [("uid", VStr "uid-d"); ("operation", VStr "CREATE")]).
  split; reflexivity.
Defined.

(** C8 fails as stated: an object of a kind that is not a pod is reviewed
    like any other, without failure and without a policy to consult, and
    here it is allowed. *)
Lemma unrecognized_kind_is_reviewed :
  run Z_stringify (widget "Widget" "example.com/v1alpha7")
  = (inr tt,
     {| console := ["validating the w1 pod"];
        res := reply {| allowed := true; status := None |} |}) /\
  run Z_stringify (widget "Widget" "example.com/v1alpha7")
  = run Z_stringify (widget "Pod" "v1").
Proof. split; reflexivity. Qed.

Lemma no_containers_allowed_witness :
  pod_containers (body no_containers) = [] /\
  decision Z_stringify no_containers
  = Some {| allowed := true; status := None |}.
Proof.
  split; [reflexivity |].
  apply (no_containers_allowed Z_stringify no_containers); reflexivity.
Defined.

End OnSamples.

(** * The handler on arbitrary documents *)

Section Behaviour.

Context {Number : Type} (Number_toString : Number -> string).

(** ** The loop on arbitrary elements *)

Lemma HasProperty_inr (c : @value Number) (b : bool) :
  HasProperty "env" c = inr b -> b = uses_env c.
Proof.
  destruct c as [| | x | x | x | items | props]; simpl;
    try discriminate; now intros [= <-].
Qed.

Lemma using_env_vars_run (c : @value Number) (w : World) :
  using_env_vars Number_toString c w
  = (match Get c "name" with
     | inl e => inl e
     | inr v => match ToString Number_toString v with
                | inl e => inl e
                | inr s => inr (s ++ " is using env vars")%string
                end
     end, w).
Proof.
  unfold using_env_vars, bind, lift, ret.
  destruct (Get c "name") as [e | v]; [reflexivity |].
  destruct (ToString Number_toString v); reflexivity.
Qed.

(** The loop body only writes to the console. *)
Lemma loop_body_res (c : @value Number) (vars : AdmissionResponse * bool)
  (w : World) :
  res (snd (loop_body Number_toString c vars w)) = res w.
Proof.
  destruct vars as [r f]. unfold loop_body, bind at 1, lift.
  destruct (HasProperty "env" c) as [e | [|]]; try reflexivity.
  unfold bind. rewrite using_env_vars_run.
  destruct (Get c "name") as [e | v]; [reflexivity |].
  destruct (ToString Number_toString v) as [e | s]; [reflexivity |].
  unfold console_log. rewrite !using_env_vars_run.
  destruct (Get c "name") as [e | v']; [simpl; now rewrite app_nil_r |].
  destruct (ToString Number_toString v'); simpl; now rewrite app_nil_r.
Qed.

Lemma for_of_loop_res (items : list (@value Number))
  (vars : AdmissionResponse * bool) (w : World) :
  res (snd (for_of items (loop_body Number_toString) vars w)) = res w.
Proof.
  revert vars w. induction items as [| c rest IH]; intros vars w.
  - reflexivity.
  - cbn [for_of]. unfold bind.
    pose proof (loop_body_res c vars w) as Hc.
    destruct (loop_body Number_toString c vars w) as [[e | vars'] w1];
      simpl in Hc; [exact Hc |].
    now rewrite IH.
Qed.

(** What one round of the loop that does not throw has done. *)
Lemma loop_body_inr (c : @value Number) (r r' : AdmissionResponse)
  (f f' : bool) (w w' : World) :
  loop_body Number_toString c (r, f) w = (inr (r', f'), w') ->
  if uses_env c
  then f' = true /\
       exists v s,
         Get c "name" = inr v /\
         ToString Number_toString v = inr s /\
         r' = {| allowed := allowed r; status := Some (failure s) |} /\
         w' = emit [(s ++ " is using env vars")%string] [] w
  else r' = r /\ f' = f /\ w' = w.
Proof.
  unfold loop_body, bind at 1, lift.
  destruct (HasProperty "env" c) as [e | b] eqn:E; [discriminate |].
  apply HasProperty_inr in E. subst b.
  destruct (uses_env c).
  - unfold bind. rewrite using_env_vars_run.
    destruct (Get c "name") as [e | v] eqn:Ev; [discriminate |].
    destruct (ToString Number_toString v) as [e | s] eqn:Es; [discriminate |].
    unfold console_log. rewrite !using_env_vars_run, Ev, Es. unfold ret.
    intros [= <- <- <-]. split; [reflexivity |].
    exists v, s. repeat split; assumption || reflexivity.
  - unfold ret. intros [= <- <- <-]. repeat split; reflexivity.
Qed.

(** What a loop that does not throw leaves in [admissionResponse] and
    [found]. *)
Lemma for_of_loop_inr (items : list (@value Number)) :
  forall (r r' : AdmissionResponse) (f f' : bool) (w w' : World),
    for_of items (loop_body Number_toString) (r, f) w = (inr (r', f'), w') ->
    match last_using_env items with
    | None => r' = r /\ f' = f
    | Some c =>
        f' = true /\
        exists v s,
          Get c "name" = inr v /\
          ToString Number_toString v = inr s /\
          r' = {| allowed := allowed r; status := Some (failure s) |}
    end.
Proof.
  induction items as [| c rest IH]; intros r r' f f' w w' H.
  - simpl in H. unfold ret in H. injection H as <- <- <-. now split.
  - cbn [for_of] in H. unfold bind in H.
    destruct (loop_body Number_toString c (r, f) w) as [[e | [r1 f1]] w1] eqn:Ec;
      [discriminate |].
    apply loop_body_inr in Ec. apply IH in H. cbn [last_using_env].
    destruct (last_using_env rest) as [d |].
    + destruct H as (-> & v & s & Hv & Hs & ->). split; [reflexivity |].
      exists v, s. repeat split; try assumption.
      destruct (uses_env c).
      * destruct Ec as (_ & ? & ? & _ & _ & -> & _). reflexivity.
      * destruct Ec as (-> & _). reflexivity.
    + destruct H as (-> & ->). destruct (uses_env c).
      * destruct Ec as (-> & v & s & Hv & Hs & -> & _). split; [reflexivity |].
        exists v, s. now repeat split.
      * destruct Ec as (-> & -> & _). now split.
Qed.

(** ** Inversion of a run *)

Lemma for_of_loop_string (cps : list string)
  (vars vars' : AdmissionResponse * bool) (w w' : World) :
  for_of (map (@VStr Number) cps) (loop_body Number_toString) vars w
  = (inr vars', w') ->
  cps = [].
Proof.
  destruct cps as [| s rest]; [reflexivity |].
  destruct vars as [r f]. cbn [map for_of]. unfold bind. simpl. discriminate.
Qed.

(** The steps of a run that returns normally. *)
Lemma denyenv_inr (req : @Request Number) (w w' : World) :
  denyenv Number_toString req w = (inr tt, w') ->
  exists name podname r' f' w1,
    path (body req) ["request"; "object"; "metadata"; "name"] = inr name /\
    ToString Number_toString name = inr podname /\
    for_of (pod_containers (body req)) (loop_body Number_toString)
      ({| allowed := false; status := None |}, false)
      (emit [("validating the " ++ podname ++ " pod")%string] [] w)
    = (inr (r', f'), w1) /\
    w' = emit [] (reply (if negb f'
                         then {| allowed := true; status := status r' |}
                         else r')) w1.
Proof.
  unfold denyenv, pod_containers, bind, lift. cbn [path].
  destruct (Get (body req) "request") as [e | request]; [discriminate |].
  destruct (Get request "object") as [e | object]; [discriminate |].
  destruct (Get object "metadata") as [e | metadata]; [discriminate |].
  destruct (Get metadata "name") as [e | name]; [discriminate |].
  destruct (ToString Number_toString name) as [e | podname] eqn:Epod;
    [discriminate |].
  cbn [console_log].
  destruct (Get object "spec") as [e | spec]; [discriminate |].
  destruct (Get spec "containers") as [e | containers]; [discriminate |].
  destruct (GetIterator containers) as [e | items] eqn:Eit; [discriminate |].
  destruct (for_of items (loop_body Number_toString) _ _)
    as [[e | [r' f']] w1] eqn:Eloop; [discriminate |].
  intro H. exists name, podname, r', f', w1.
  split; [reflexivity |]. split; [exact Epod |].
  assert (Hitems : items = match containers with VArr l => l | _ => [] end).
  { destruct containers as [| | x | x | s | l | x]; try discriminate.
    - injection Eit as <-. now apply for_of_loop_string in Eloop as ->.
    - now injection Eit as <-. }
  rewrite <- Hitems. split; [exact Eloop |].
  unfold res_call in H. injection H as <-.
  rewrite !emit_emit. reflexivity.
Qed.

(** The calls on [res] of any run: none if it throws, those of one reply
    if it returns. *)
Lemma denyenv_res (req : @Request Number) (w : World) :
  match denyenv Number_toString req w with
  | (inl _, w') => res w' = res w
  | (inr _, w') => exists r, res w' = res w ++ reply r
  end.
Proof.
  destruct (denyenv Number_toString req w) as [[e | []] w'] eqn:E.
  - revert E. unfold denyenv, bind, lift.
    destruct (Get (body req) "request") as [e1 | request];
      [now intros [= _ <-] |].
    destruct (Get request "object") as [e1 | object]; [now intros [= _ <-] |].
    destruct (Get object "metadata") as [e1 | metadata];
      [now intros [= _ <-] |].
    destruct (Get metadata "name") as [e1 | name]; [now intros [= _ <-] |].
    destruct (ToString Number_toString name) as [e1 | podname];
      [now intros [= _ <-] |].
    cbn [console_log].
    destruct (Get object "spec") as [e1 | spec];
      [intros [= _ <-]; simpl; now rewrite app_nil_r |].
    destruct (Get spec "containers") as [e1 | containers];
      [intros [= _ <-]; simpl; now rewrite app_nil_r |].
    destruct (GetIterator containers) as [e1 | items];
      [intros [= _ <-]; simpl; now rewrite app_nil_r |].
    pose proof (for_of_loop_res items
                  ({| allowed := false; status := None |}, false)
                  (emit [("validating the " ++ podname ++ " pod")%string] [] w))
      as Hres.
    destruct (for_of items (loop_body Number_toString) _ _)
      as [[e1 | [r' f']] w1]; [| discriminate].
    intros [= _ <-]. simpl in Hres. now rewrite app_nil_r in Hres.
  - apply denyenv_inr in E
      as (name & podname & r' & f' & w1 & _ & _ & Hloop & ->).
    pose proof (for_of_loop_res (pod_containers (body req))
                  ({| allowed := false; status := None |}, false)
                  (emit [("validating the " ++ podname ++ " pod")%string] [] w))
      as Hres.
    rewrite Hloop in Hres. simpl in Hres. rewrite app_nil_r in Hres.
    eexists. simpl. now rewrite Hres.
Qed.

(** The response of any run that returns normally. *)
Lemma decision_inv (req : @Request Number) (r : AdmissionResponse) :
  decision Number_toString req = Some r ->
  match last_using_env (pod_containers (body req)) with
  | None => r = {| allowed := true; status := None |}
  | Some c =>
      exists v s,
        Get c "name" = inr v /\
        ToString Number_toString v = inr s /\
        r = {| allowed := false; status := Some (failure s) |}
  end.
Proof.
  unfold decision, run.
  destruct (denyenv Number_toString req initial) as [[e | []] w'] eqn:E;
    [discriminate |].
  apply denyenv_inr in E
    as (name & podname & r' & f' & w1 & _ & _ & Hloop & ->).
  pose proof (for_of_loop_res (pod_containers (body req))
                ({| allowed := false; status := None |}, false)
                (emit [("validating the " ++ podname ++ " pod")%string] []
                   initial)) as Hres.
  rewrite Hloop in Hres. simpl in Hres.
  cbn [emit res]. rewrite Hres. cbn [app sent flat_map reply response].
  intros [= <-].
  apply for_of_loop_inr in Hloop.
  destruct (last_using_env (pod_containers (body req))) as [c |].
  - destruct Hloop as (-> & v & s & Hv & Hs & ->). now exists v, s.
  - destruct Hloop as (-> & ->). reflexivity.
Qed.

(** ** Replies *)

(** X1. Whenever the handler returns, it has made exactly four calls on
    [res], in this order: the JSON content-type header, the send of one
    review document, status 200 and [end]; the status is 200 whether the
    document allows or denies. *)
Theorem answer_is_one_reply (req : @Request Number) (w w' : World) :
  denyenv Number_toString req w = (inr tt, w') ->
  exists r,
    res w' = res w ++ [ResSetHeader "Content-Type" "application/json";
                       ResSendJSON {| response := r |};
                       ResStatus 200;
                       ResEnd].
Proof.
  intro H. pose proof (denyenv_res req w) as Hres.
  rewrite H in Hres. exact Hres.
Qed.

(** X2. Whenever the handler throws, it has made no call on [res]: a
    request is answered completely or not at all. *)
Theorem throw_sends_nothing (req : @Request Number) (w w' : World)
  (e : Error) :
  denyenv Number_toString req w = (inl e, w') ->
  res w' = res w.
Proof.
  intro H. pose proof (denyenv_res req w) as Hres.
  rewrite H in Hres. exact Hres.
Qed.

(** X3. Every response the handler sends, for whatever document, is either
    [allowed] true without a status block, or [allowed] false with a status
    block of status "Failure", code 402 and a message and a reason that are
    the same text ending in " is using env vars". *)
Theorem answered_shape (req : @Request Number) (r : AdmissionResponse) :
  decision Number_toString req = Some r ->
  (allowed r = true /\ status r = None) \/
  (allowed r = false /\
   exists s,
     status r = Some {| status_status := "Failure";
                        status_message := (s ++ " is using env vars")%string;
                        status_reason := (s ++ " is using env vars")%string;
                        status_code := 402 |}).
Proof.
  intro H. apply decision_inv in H.
  destruct (last_using_env (pod_containers (body req))) as [c |].
  - destruct H as (v & s & _ & _ & ->). right. split; [reflexivity |].
    now exists s.
  - subst r. left. now split.
Qed.

(** X4. For whatever document the handler answers, also one whose
    containers have no name or a name that is not a string, the response
    allows exactly when no element of the containers list is an object with
    an [env] property. *)
Theorem answered_allowed_iff_no_env (req : @Request Number)
  (r : AdmissionResponse) :
  decision Number_toString req = Some r ->
  (allowed r = true <->
   forall c, In c (pod_containers (body req)) -> uses_env c = false).
Proof.
  intro H. apply decision_inv in H.
  destruct (last_using_env (pod_containers (body req))) as [d |] eqn:E.
  - destruct H as (v & s & _ & _ & ->). cbn [allowed].
    apply last_using_env_Some in E as [Hin Hd].
    split; [discriminate |]. intro Hall.
    rewrite (Hall d Hin) in Hd. discriminate.
  - subst r. cbn [allowed]. split; [| reflexivity].
    intros _. now apply last_using_env_None.
Qed.


(** X6. When the last container with [env] has no [name], the denial
    reports it as "undefined is using env vars". *)
Theorem nameless_container_is_undefined (req : @Request Number)
  (r : AdmissionResponse) (c : @value Number) :
  decision Number_toString req = Some r ->
  last_using_env (pod_containers (body req)) = Some c ->
  lacks c "name" = true ->
  r = {| allowed := false; status := Some (failure "undefined") |}.
Proof.
  intros H Hlast Hname. apply decision_inv in H. rewrite Hlast in H.
  destruct H as (v & s & Hv & Hs & ->).
  assert (Hund : v = VUndefined).
  { destruct c as [| | x | x | x | items | props]; simpl in Hv;
      try discriminate; try congruence.
    simpl in Hname. unfold has_own in Hname.
    destruct (own props "name"); [discriminate | congruence]. }
  subst v. simpl in Hs. now injection Hs as <-.
Qed.

(** X7. On a well-formed request the console receives the line
    "validating the <pod> pod" and then one line "<name> is using env vars"
    for every container with [env], in the order of the containers list:
    every such container is logged, although only one is reported. *)
Theorem log_lists_every_env_container (req : @Request Number) (w : World) :
  well_formed (body req) = true ->
  exists podname,
    path (body req) ["request"; "object"; "metadata"; "name"]
    = inr (VStr podname) /\
    console (snd (denyenv Number_toString req w))
    = console w
      ++ ("validating the " ++ podname ++ " pod")%string
         :: map (fun c => (name_of c ++ " is using env vars")%string)
              (filter uses_env (pod_containers (body req))).
Proof.
  intro Hwf.
  destruct (denyenv_well_formed Number_toString req w Hwf)
    as (podname & Hname & ->).
  exists podname. split; [exact Hname | reflexivity].
Qed.

(** ** The two reads that decide a run *)

(** A run as a function of [request.object.metadata.name] and
    [request.object.spec.containers]. *)
Lemma denyenv_paths (req : @Request Number) (w : World) :
  denyenv Number_toString req w =
  match path (body req) ["request"; "object"; "metadata"; "name"] with
  | inl e => (inl e, w)
  | inr name =>
      match ToString Number_toString name with
      | inl e => (inl e, w)
      | inr podname =>
          let w1 := emit [("validating the " ++ podname ++ " pod")%string] [] w in
          match path (body req) ["request"; "object"; "spec"; "containers"] with
          | inl e => (inl e, w1)
          | inr containers =>
              match GetIterator containers with
              | inl e => (inl e, w1)
              | inr items =>
                  match for_of items (loop_body Number_toString)
                          ({| allowed := false; status := None |}, false) w1 with
                  | (inl e, w2) => (inl e, w2)
                  | (inr (r', f'), w2) =>
                      (inr tt,
                       emit [] (reply (if negb f'
                                       then {| allowed := true;
                                               status := status r' |}
                                       else r')) w2)
                  end
              end
          end
      end
  end.
Proof.
  unfold denyenv, bind, lift. cbn [path].
  destruct (Get (body req) "request") as [e | request]; [reflexivity |].
  destruct (Get request "object") as [e | object]; [reflexivity |].
  destruct (Get object "metadata") as [e | metadata]; [reflexivity |].
  destruct (Get metadata "name") as [e | name]; [reflexivity |].
  destruct (ToString Number_toString name) as [e | podname]; [reflexivity |].
  cbn [console_log]. cbv zeta.
  destruct (Get object "spec") as [e | spec]; [reflexivity |].
  destruct (Get spec "containers") as [e | containers]; [reflexivity |].
  destruct (GetIterator containers) as [e | items]; [reflexivity |].
  destruct (for_of items (loop_body Number_toString) _ _)
    as [[e | [r' f']] w2]; [reflexivity |].
  unfold res_call. rewrite !emit_emit. reflexivity.
Qed.

Lemma loop_body_view (c1 c2 : @value Number)
  (vars : AdmissionResponse * bool) (w : World) :
  HasProperty "env" c1 = HasProperty "env" c2 ->
  Get c1 "name" = Get c2 "name" ->
  loop_body Number_toString c1 vars w = loop_body Number_toString c2 vars w.
Proof.
  intros Henv Hname. destruct vars as [r f].
  unfold loop_body, using_env_vars. now rewrite Henv, Hname.
Qed.

Lemma for_of_view (cs1 cs2 : list (@value Number)) :
  Forall2 (fun c1 c2 => HasProperty "env" c1 = HasProperty "env" c2 /\
                        Get c1 "name" = Get c2 "name") cs1 cs2 ->
  forall (vars : AdmissionResponse * bool) (w : World),
    for_of cs1 (loop_body Number_toString) vars w
    = for_of cs2 (loop_body Number_toString) vars w.
Proof.
  induction 1 as [| c1 c2 rest1 rest2 [Henv Hname] _ IH]; intros vars w.
  - reflexivity.
  - cbn [for_of]. unfold bind.
    rewrite (loop_body_view c1 c2 vars w Henv Hname).
    destruct (loop_body Number_toString c2 vars w) as [[e | vars'] w1];
      [reflexivity | apply IH].
Qed.

Lemma for_of_loop_throws (items : list (@value Number)) (x : @value Number) :
  In x items ->
  HasProperty "env" x = inl TypeError ->
  forall (vars : AdmissionResponse * bool) (w : World),
    fst (for_of items (loop_body Number_toString) vars w) = inl TypeError.
Proof.
  intros Hin Hx. induction items as [| c rest IH]; intros vars w.
  - destruct Hin.
  - cbn [for_of]. unfold bind.
    destruct (loop_body Number_toString c vars w) as [[[] | vars'] w1] eqn:Ec;
      [reflexivity |].
    destruct Hin as [-> | Hin]; [| now apply IH].
    destruct vars as [r f]. unfold loop_body, bind, lift in Ec.
    rewrite Hx in Ec. discriminate.
Qed.

Lemma code_points_nonempty (c : ascii) (s : string) :
  code_points (String c s) <> [].
Proof.
  unfold code_points. cbn [code_points_aux].
  destruct (code_points_aux s) as [pending cps].
  destruct (is_continuation c); discriminate.
Qed.

Lemma verdict_allowed (cs : list (@value Number)) :
  allowed (verdict cs) = true <-> forall c, In c cs -> uses_env c = false.
Proof.
  unfold verdict. rewrite <- last_using_env_None.
  destruct (last_using_env cs); cbn [allowed]; split;
    discriminate || reflexivity.
Qed.

(** ** Documents the handler cannot walk *)

(** X8. When the object of the request has no [metadata], the handler
    throws at the read of [metadata.name]: nothing has been logged and
    nothing is sent. *)
Theorem missing_metadata_throws (req : @Request Number) (w : World)
  (object : @value Number) :
  path (body req) ["request"; "object"] = inr object ->
  lacks object "metadata" = true ->
  denyenv Number_toString req w = (inl TypeError, w).
Proof.
  cbn [path]. intros Hobj Hlacks. unfold denyenv, bind, lift.
  destruct (Get (body req) "request") as [e | request]; [discriminate |].
  destruct (Get request "object") as [e | object']; [discriminate |].
  injection Hobj as ->.
  destruct object as [| | x | x | x | items | props]; try reflexivity.
  simpl in Hlacks. unfold has_own in Hlacks. simpl.
  destruct (own props "metadata"); [discriminate | reflexivity].
Qed.

(** X9. When the pod has a name but no [spec], or a [spec] without
    [containers], the handler throws at the loop: the line
    "validating the <pod> pod" has been logged and nothing is sent. *)
Theorem missing_containers_throws (req : @Request Number) (w : World)
  (object name : @value Number) (podname : string) :
  path (body req) ["request"; "object"] = inr object ->
  path (body req) ["request"; "object"; "metadata"; "name"] = inr name ->
  ToString Number_toString name = inr podname ->
  lacks object "spec" = true \/
  (exists spec, Get object "spec" = inr spec /\ lacks spec "containers" = true) ->
  denyenv Number_toString req w
  = (inl TypeError,
     emit [("validating the " ++ podname ++ " pod")%string] [] w).
Proof.
  intros Hobj Hname Hpod Hlacks.
  rewrite denyenv_paths, Hname, Hpod. cbv zeta.
  assert (Hmeta : Get object "metadata" <> inl TypeError).
  { revert Hobj Hname. cbn [path].
    destruct (Get (body req) "request") as [e | request]; [discriminate |].
    destruct (Get request "object") as [e | object']; [discriminate |].
    intros [= ->]. destruct (Get object "metadata"); discriminate. }
  assert (Hc : match path (body req) ["request"; "object"; "spec"; "containers"] with
               | inl _ => True
               | inr containers => GetIterator containers = inl TypeError
               end).
  { revert Hobj. cbn [path].
    destruct (Get (body req) "request") as [e | request]; [discriminate |].
    destruct (Get request "object") as [e | object']; [discriminate |].
    intros [= ->].
    destruct Hlacks as [Hspec | (spec & Espec & Hcont)].
    - destruct object as [| | x | x | x | items | props];
        try exact I; try (now contradiction Hmeta).
      simpl in Hspec. unfold has_own in Hspec. simpl.
      destruct (own props "spec"); [discriminate | exact I].
    - rewrite Espec.
      destruct spec as [| | x | x | x | items | props]; try exact I;
        try reflexivity.
      simpl in Hcont. unfold has_own in Hcont. simpl.
      destruct (own props "containers"); [discriminate | reflexivity]. }
  destruct (path (body req) ["request"; "object"; "spec"; "containers"])
    as [[] | containers]; [reflexivity |].
  now rewrite Hc.
Qed.

(** X10. When an element of the containers list is [null] or a primitive,
    on which the [in] operator throws, the handler throws and sends
    nothing, whatever the other containers are. *)
Theorem non_object_container_throws (req : @Request Number) (w : World)
  (x : @value Number) :
  In x (pod_containers (body req)) ->
  HasProperty "env" x = inl TypeError ->
  fst (denyenv Number_toString req w) = inl TypeError /\
  res (snd (denyenv Number_toString req w)) = res w.
Proof.
  intros Hin Hx.
  assert (Hthrow : fst (denyenv Number_toString req w) = inl TypeError).
  { destruct (denyenv Number_toString req w) as [[[] | []] w'] eqn:E;
      [reflexivity |].
    apply denyenv_inr in E
      as (name & podname & r' & f' & w1 & _ & _ & Hloop & _).
    pose proof (for_of_loop_throws _ x Hin Hx
                  ({| allowed := false; status := None |}, false)
                  (emit [("validating the " ++ podname ++ " pod")%string] [] w))
      as Hf.
    rewrite Hloop in Hf. discriminate. }
  split; [exact Hthrow |].
  pose proof (denyenv_res req w) as Hres.
  destruct (denyenv Number_toString req w) as [[e | u] w']; [exact Hres |].
  discriminate.
Qed.

(** X11. When [containers] is bound to a string the loop runs over its
    code points: the empty string is an empty containers list and the pod
    is allowed, any other string makes the handler throw at its first code
    point, after the first log line and before any answer. *)
Theorem string_containers_run (req : @Request Number) (w : World)
  (name : @value Number) (podname s : string) :
  path (body req) ["request"; "object"; "metadata"; "name"] = inr name ->
  ToString Number_toString name = inr podname ->
  path (body req) ["request"; "object"; "spec"; "containers"] = inr (VStr s) ->
  denyenv Number_toString req w =
  match s with
  | EmptyString =>
      (inr tt,
       emit [("validating the " ++ podname ++ " pod")%string]
         (reply {| allowed := true; status := None |}) w)
  | String _ _ =>
      (inl TypeError,
       emit [("validating the " ++ podname ++ " pod")%string] [] w)
  end.
Proof.
  intros Hname Hpod Hcs. rewrite denyenv_paths, Hname, Hpod, Hcs.
  cbv zeta. cbn [GetIterator].
  destruct s as [| c s].
  - cbn [code_points code_points_aux map for_of]. unfold ret.
    cbn [negb status]. rewrite emit_emit. reflexivity.
  - pose proof (code_points_nonempty c s) as Hne.
    destruct (code_points (String c s)) as [| cp rest]; [now contradiction Hne |].
    reflexivity.
Qed.

(** ** What the outcome depends on *)

(** X12. The outcome depends on the request only through
    [request.object.metadata.name] and [request.object.spec.containers]:
    two documents on which these two reads agree get the same log lines and
    the same response, or the same exception. *)
Theorem denyenv_reads_two_paths (req1 req2 : @Request Number) (w : World) :
  path (body req1) ["request"; "object"; "metadata"; "name"]
  = path (body req2) ["request"; "object"; "metadata"; "name"] ->
  path (body req1) ["request"; "object"; "spec"; "containers"]
  = path (body req2) ["request"; "object"; "spec"; "containers"] ->
  denyenv Number_toString req1 w = denyenv Number_toString req2 w.
Proof.
  intros Hname Hcs. now rewrite !denyenv_paths, Hname, Hcs.
Qed.

(** X13. The outcome depends on a container only through whether it has an
    [env] property and what its [name] is: two pods of the same name whose
    containers agree, one by one, on the [in] test and on the [name] read
    get the same outcome, whatever their images, their [env] values and
    their other members. *)
Theorem denyenv_reads_env_and_name (req1 req2 : @Request Number)
  (cs1 cs2 : list (@value Number)) (w : World) :
  path (body req1) ["request"; "object"; "metadata"; "name"]
  = path (body req2) ["request"; "object"; "metadata"; "name"] ->
  path (body req1) ["request"; "object"; "spec"; "containers"]
  = inr (VArr cs1) ->
  path (body req2) ["request"; "object"; "spec"; "containers"]
  = inr (VArr cs2) ->
  Forall2 (fun c1 c2 => HasProperty "env" c1 = HasProperty "env" c2 /\
                        Get c1 "name" = Get c2 "name") cs1 cs2 ->
  denyenv Number_toString req1 w = denyenv Number_toString req2 w.
Proof.
  intros Hname H1 H2 Hview.
  rewrite !denyenv_paths, Hname, H1, H2. cbn [GetIterator].
  destruct (path (body req2) ["request"; "object"; "metadata"; "name"])
    as [e | name]; [reflexivity |].
  destruct (ToString Number_toString name) as [e | podname]; [reflexivity |].
  cbv zeta. now rewrite (for_of_view cs1 cs2 Hview).
Qed.

(** X14. The [allowed] flag does not depend on the order of the containers
    nor on repetitions: two well-formed requests whose containers lists
    have the same members are both answered, with the same flag. *)
Theorem same_members_same_flag (req1 req2 : @Request Number) :
  well_formed (body req1) = true ->
  well_formed (body req2) = true ->
  (forall c, In c (pod_containers (body req1))
             <-> In c (pod_containers (body req2))) ->
  exists r1 r2,
    decision Number_toString req1 = Some r1 /\
    decision Number_toString req2 = Some r2 /\
    allowed r1 = allowed r2.
Proof.
  intros Hwf1 Hwf2 Hsame.
  exists (verdict (pod_containers (body req1))),
    (verdict (pod_containers (body req2))).
  split; [now apply decision_well_formed |].
  split; [now apply decision_well_formed |].
  apply eq_true_iff_eq. rewrite !verdict_allowed.
  split; intros H c Hin; apply H; now apply Hsame.
Qed.

(** X15. Adding containers never turns a denial into an admission: if a
    well-formed request is denied, every well-formed request whose
    containers list includes its containers is denied too. *)
Theorem more_containers_still_denied (req1 req2 : @Request Number)
  (r1 : AdmissionResponse) :
  well_formed (body req1) = true ->
  well_formed (body req2) = true ->
  incl (pod_containers (body req1)) (pod_containers (body req2)) ->
  decision Number_toString req1 = Some r1 ->
  allowed r1 = false ->
  exists r2, decision Number_toString req2 = Some r2 /\ allowed r2 = false.
Proof.
  intros Hwf1 Hwf2 Hincl Hd1 Hden.
  rewrite (decision_well_formed Number_toString req1 Hwf1) in Hd1.
  injection Hd1 as <-.
  exists (verdict (pod_containers (body req2))).
  split; [now apply decision_well_formed |].
  apply not_true_is_false. intro Hall.
  pose proof (proj1 (verdict_allowed _) Hall) as Hnone.
  assert (Hall1 : allowed (verdict (pod_containers (body req1))) = true).
  { apply verdict_allowed. intros c Hin. apply Hnone. now apply Hincl. }
  congruence.
Qed.

End Behaviour.

(** * The behaviour on the sample documents *)

Module OnEdgeSamples.
Import Samples EdgeSamples.

Lemma answer_is_one_reply_witness :
  exists r,
    res (snd (denyenv Z_stringify two_offenders initial))
    = res initial ++ [ResSetHeader "Content-Type" "application/json";
                      ResSendJSON {| response := r |};
                      ResStatus 200;
                      ResEnd].
Proof.
  apply (answer_is_one_reply Z_stringify two_offenders initial
           (snd (denyenv Z_stringify two_offenders initial))).
  reflexivity.
Defined.

Lemma throw_sends_nothing_witness :
  fst (denyenv Z_stringify null_container initial) = inl TypeError /\
  res (snd (denyenv Z_stringify null_container initial)) = res initial.
Proof.
  split; [reflexivity |].
  apply (throw_sends_nothing Z_stringify null_container initial
           (snd (denyenv Z_stringify null_container initial)) TypeError).
  reflexivity.
Defined.

Lemma answered_shape_witness :
  decision Z_stringify numbered
  = Some {| allowed := false; status := Some (failure "7") |} /\
  ((allowed {| allowed := false; status := Some (failure "7") |} = true /\
    status {| allowed := false; status := Some (failure "7") |} = None) \/
   (allowed {| allowed := false; status := Some (failure "7") |} = false /\
    exists s,
      status {| allowed := false; status := Some (failure "7") |}
      = Some {| status_status := "Failure";
                status_message := (s ++ " is using env vars")%string;
                status_reason := (s ++ " is using env vars")%string;
                status_code := 402 |})).
Proof.
  split; [reflexivity |].
  apply (answered_shape Z_stringify numbered). reflexivity.
Defined.

Lemma answered_allowed_iff_no_env_witness :
  allowed {| allowed := false; status := Some (failure "undefined") |} = true
  <-> forall c, In c (pod_containers (body nameless)) -> uses_env c = false.
Proof.
  apply (answered_allowed_iff_no_env Z_stringify nameless). reflexivity.
Defined.


Lemma nameless_container_is_undefined_witness :
  last_using_env (pod_containers (body nameless))
  = Some (VObj [("image", VStr "nginx"); ("env", VArr [])]) /\
  lacks (VObj [("image", VStr "nginx"); ("env", VArr [])] : JS) "name" = true /\
  exists r,
    decision Z_stringify nameless = Some r /\
    r = {| allowed := false; status := Some (failure "undefined") |}.
Proof.
  split; [reflexivity |]. split; [reflexivity |].
  eexists. split; [reflexivity |].
  apply (nameless_container_is_undefined Z_stringify nameless _
           (VObj [("image", VStr "nginx"); ("env", VArr [])]));
    reflexivity.
Defined.

Lemma log_lists_every_env_container_witness :
  exists podname,
    path (body two_offenders) ["request"; "object"; "metadata"; "name"]
    = inr (VStr podname) /\
    console (snd (denyenv Z_stringify two_offenders initial))
    = console initial
      ++ ("validating the " ++ podname ++ " pod")%string
         :: map (fun c => (name_of c ++ " is using env vars")%string)
              (filter uses_env (pod_containers (body two_offenders))).
Proof.
  apply (log_lists_every_env_container Z_stringify two_offenders initial).
  reflexivity.
Defined.

Lemma missing_metadata_throws_witness :
  denyenv Z_stringify no_metadata initial = (inl TypeError, initial).
Proof.
  apply (missing_metadata_throws Z_stringify no_metadata initial
           (VObj [("spec", VObj [("containers", VArr [container "c1"])])]));
    reflexivity.
Defined.

Lemma missing_containers_throws_witness :
  denyenv Z_stringify no_containers_member initial
  = (inl TypeError, emit ["validating the bare pod"] [] initial).
Proof.
  apply (missing_containers_throws Z_stringify no_containers_member initial
           (VObj [("metadata", VObj [("name", VStr "bare")]);
                  ("spec", VObj [("nodeName", VStr "n1")])])
           (VStr "bare") "bare").
  - reflexivity.
  - reflexivity.
  - reflexivity.
  - right. exists (VObj [("nodeName", VStr "n1")]). split; reflexivity.
Defined.

Lemma non_object_container_throws_witness :
  fst (denyenv Z_stringify null_container initial) = inl TypeError /\
  res (snd (denyenv Z_stringify null_container initial)) = res initial.
Proof.
  apply (non_object_container_throws Z_stringify null_container initial VNull).
  - right. now left.
  - reflexivity.
Defined.

Lemma string_containers_run_witness :
  denyenv Z_stringify (string_containers "nginx") initial
  = (inl TypeError, emit ["validating the texty pod"] [] initial) /\
  denyenv Z_stringify (string_containers EmptyString) initial
  = (inr tt,
     emit ["validating the texty pod"]
       (reply {| allowed := true; status := None |}) initial).
Proof.
  split.
  - apply (string_containers_run Z_stringify (string_containers "nginx")
             initial (VStr "texty") "texty" "nginx"); reflexivity.
  - apply (string_containers_run Z_stringify (string_containers EmptyString)
             initial (VStr "texty") "texty" EmptyString); reflexivity.
Defined.

Lemma denyenv_reads_two_paths_witness :
  denyenv Z_stringify scenario_b initial
  = denyenv Z_stringify resubmitted initial.
Proof.
  apply (denyenv_reads_two_paths Z_stringify scenario_b resubmitted initial);
    reflexivity.
Defined.

Lemma denyenv_reads_env_and_name_witness :
  denyenv Z_stringify dressed initial = denyenv Z_stringify plain initial.
Proof.
  apply (denyenv_reads_env_and_name Z_stringify dressed plain
           (pod_containers (body dressed)) (pod_containers (body plain))
           initial).
  - reflexivity.
  - reflexivity.
  - reflexivity.
  - repeat constructor.
Defined.

Lemma same_members_same_flag_witness :
  exists r1 r2,
    decision Z_stringify two_offenders = Some r1 /\
    decision Z_stringify shuffled = Some r2 /\
    allowed r1 = allowed r2.
Proof.
  apply (same_members_same_flag Z_stringify two_offenders shuffled).
  - reflexivity.
  - reflexivity.
  - intro c. simpl. tauto.
Defined.

Lemma more_containers_still_denied_witness :
  exists r2, decision Z_stringify grown = Some r2 /\ allowed r2 = false.
Proof.
  apply (more_containers_still_denied Z_stringify empty_env grown
           {| allowed := false; status := Some (failure "app") |}).
  - reflexivity.
  - reflexivity.
  - intros c [<- | []]. right. now left.
  - reflexivity.
  - reflexivity.
Defined.

End OnEdgeSamples.
